(** * The sender hook of alt-sendme: transfer state machine and event arbitration

    Shallow embedding of [useSender] (the hook that follows the [Sender]
    component in [src/web-app/src/components/sender/Sender.tsx]): its React
    state, its refs, the three backend listeners, the commands
    [handleFileSelect], [startSharing], [stopSharing], the timers they arm
    and the continuations they leave behind at every [await]. *)

From Stdlib Require Import ZArith Bool List String Ascii Lia.
From Stdlib Require Decimal DecimalString DecimalFacts DecimalPos DecimalN DecimalZ.
From Stdlib Require Import SpecFloat.
Import ListNotations.

Local Open Scope string_scope.
Local Open Scope list_scope.
Local Open Scope Z_scope.

(** ** JavaScript values used by the hook *)

Module Js.

(** A JavaScript number is an IEEE-754 binary64 value.  [spec_float] with
    precision 53 and maximal exponent 1024 is exactly that format (NaN has no
    payload, which JavaScript cannot observe either). *)
Definition number : Type := spec_float.

Definition prec : Z := 53.
Definition emax : Z := 1024.

Definition NaN : number := S754_nan.

(** The number nearest to an integer (ties to even), with the sign of zero
    chosen by [negzero]. *)
Definition of_Z_signed (negzero : bool) (z : Z) : number :=
  binary_normalize prec emax z 0 negzero.

Definition of_Z (z : Z) : number := of_Z_signed false z.

Definition div (x y : number) : number := SFdiv prec emax x y.
Definition mul (x y : number) : number := SFmul prec emax x y.

(** [x > y], false as soon as one side is NaN. *)
Definition gt (x y : number) : bool := SFltb y x.
Definition le (x y : number) : bool := SFleb x y.

(** Strings are sequences of code units; the embedding keeps the code units
    below 256, which covers every payload the transfer engine formats. *)

(** [s.split(c)] for a one-character separator: never empty, the pieces
    between the separators, in order. *)
Fixpoint split (c : ascii) (s : string) : list string :=
  match s with
  | EmptyString => [EmptyString]
  | String a r =>
      if Ascii.eqb a c then EmptyString :: split c r
      else match split c r with
           | [] => [String a EmptyString]
           | p :: ps => String a p :: ps
           end
  end.

(** [xs.pop()] read as a value: the last element, [undefined] on []. *)
Definition pop {A} (xs : list A) : option A :=
  match List.rev xs with
  | [] => None
  | x :: _ => Some x
  end.

(** Truthiness of a string: the empty string is falsy. *)
Definition truthy_string (s : string) : bool :=
  match s with
  | EmptyString => false
  | _ => true
  end.

(** White space skipped by [parseInt] (StrWhiteSpaceChar below 256):
    TAB, LF, VT, FF, CR, SP and NBSP. *)
Definition is_whitespace (a : ascii) : bool :=
  let n := nat_of_ascii a in
  (Nat.eqb n 9 || Nat.eqb n 10 || Nat.eqb n 11 || Nat.eqb n 12
   || Nat.eqb n 13 || Nat.eqb n 32 || Nat.eqb n 160)%bool.

Fixpoint trim_start (s : string) : string :=
  match s with
  | String a r => if is_whitespace a then trim_start r else s
  | EmptyString => s
  end.

(** The value of a radix-10 digit: the code units 48 to 57. *)
Definition digit_value (a : ascii) : option Z :=
  let n := nat_of_ascii a in
  if (Nat.leb 48 n && Nat.leb n 57)%bool then Some (Z.of_nat (n - 48)) else None.

(** The longest prefix of radix-10 digits, read as an integer; [None] when
    that prefix is empty.  [acc] carries the value read so far and [seen]
    whether a digit was read. *)
Fixpoint leading_digits (s : string) (acc : Z) (seen : bool) : option Z :=
  match s with
  | EmptyString => if seen then Some acc else None
  | String a r =>
      match digit_value a with
      | Some d => leading_digits r (acc * 10 + d) true
      | None => if seen then Some acc else None
      end
  end.

(** [parseInt(s, 10)]: skip leading white space, take an optional sign, read
    the longest prefix of digits; NaN when there is no digit.  The digits are
    read exactly and rounded once to the nearest number. *)
Definition parseInt (s : string) : number :=
  let t := trim_start s in
  let '(neg, body) :=
    match t with
    | String "-" r => (true, r)
    | String "+" r => (false, r)
    | _ => (false, t)
    end%char in
  match leading_digits body 0 false with
  | None => NaN
  | Some m => of_Z_signed neg (if neg then - m else m)
  end.

End Js.

(** ** Data model *)

(** The six values of [SenderStatus] ([../types/sender]). *)
Inductive SenderStatus : Type :=
| IDLE
| FILE_SELECTED
| WAITING_FOR_RECEIVER
| TRANSFERRING
| TRANSFER_COMPLETE
| TRANSFER_STOPPED.

Scheme Equality for SenderStatus.

(** [progressData], the object built by the progress listener. *)
Record TransferProgress : Type := mkProgress {
  bytesTransferred : Js.number;
  totalBytes : Js.number;
  speedBps : Js.number;
  percentage : Js.number
}.

(** The metadata objects built by the listeners and by [stopSharing].  The
    completion listener builds its object without a [wasStopped] property
    ([None]); the other two sites write [wasStopped: true]. *)
Record TransferMetadata : Type := mkMetadata {
  fileName : string;
  fileSize : Z;
  duration : Z;
  startTime : Z;
  endTime : Z;
  wasStopped : option bool
}.

Inductive AlertType : Type := alert_info | alert_error.

Record AlertDialogState : Type := mkAlert {
  isOpen : bool;
  title : string;
  description : string;
  type : AlertType
}.

(** What a [setTimeout] callback of the hook does when it runs. *)
Inductive TimerAction : Type :=
| ShowProgress (progressData : TransferProgress)
    (* setTransferProgress(progressData), armed for 100 ms *)
| CommitComplete
    (* setSenderStatus(TRANSFER_COMPLETE), armed for 0 ms *)
| CommitStopped
    (* setSenderStatus(TRANSFER_STOPPED), armed for 0 ms by the failure listener *)
| FailedDecay
    (* setSenderStatus(IDLE); setTransferMetadata(null), armed for 2000 ms *)
| StopDecay.
    (* the full clear armed for 2000 ms by stopSharing *)

Record Timer : Type := mkTimer {
  tid : nat;
  due : Z;
  action : TimerAction
}.

(** What is left of an async function at an [await invoke(...)].  The
    completion listener keeps its locals [path], [startTime], [endTime] and
    [duration] across the file-size lookup. *)
Inductive Continuation : Type :=
| AwaitPathType
| AwaitStartSharing
| AwaitStopWhileWaiting
| AwaitStopWhileTransferring
| AwaitFileSize (path : string) (startTime : option Z) (endTime duration : Z).

(** What a backend command settles with. *)
Inductive Value : Type :=
| VString (s : string)
| VNumber (n : Z)
| VVoid.

Inductive Reply : Type :=
| Resolved (v : Value)
| Rejected (error : string).

(** [event.payload] of a progress event: a string, or anything else (on which
    [payload.split] throws). *)
Inductive Payload : Type :=
| PString (s : string)
| PNotAString.

(** Everything the hook holds between two triggers: the [useState] values,
    the refs, the effect-local [progressUpdateTimeout], the armed timers and
    the pending continuations.  [copySuccess] and [copyTicket] (clipboard) and
    the listener set-up guard are left out: they touch none of these. *)
Record Hook : Type := mkHook {
  senderStatus : SenderStatus;
  ticket : option string;
  selectedPath : option string;
  pathType : option string;
  isLoading : bool;
  transferMetadata : option TransferMetadata;
  transferProgress : option TransferProgress;
  transferStartTime : option Z;
  alertDialog : AlertDialogState;
  wasManuallyStoppedRef : bool;
  transferStartTimeRef : option Z;
  selectedPathRef : option string;
  lastProgressRef : option TransferProgress;
  progressUpdateTimeout : option nat;
  timers : list Timer;
  nextTimer : nat;
  awaiting : list Continuation
}.

Definition initial : Hook :=
  {| senderStatus := IDLE;
     ticket := None;
     selectedPath := None;
     pathType := None;
     isLoading := false;
     transferMetadata := None;
     transferProgress := None;
     transferStartTime := None;
     alertDialog := mkAlert false "" "" alert_info;
     wasManuallyStoppedRef := false;
     transferStartTimeRef := None;
     selectedPathRef := None;
     lastProgressRef := None;
     progressUpdateTimeout := None;
     timers := [];
     nextTimer := 1;
     awaiting := [] |}.

(** *** State setters and ref writes *)

Definition setSenderStatus (v : SenderStatus) (h : Hook) : Hook :=
  mkHook v (ticket h) (selectedPath h) (pathType h) (isLoading h)
    (transferMetadata h) (transferProgress h) (transferStartTime h)
    (alertDialog h) (wasManuallyStoppedRef h) (transferStartTimeRef h)
    (selectedPathRef h) (lastProgressRef h) (progressUpdateTimeout h)
    (timers h) (nextTimer h) (awaiting h).

Definition setTicket (v : option string) (h : Hook) : Hook :=
  mkHook (senderStatus h) v (selectedPath h) (pathType h) (isLoading h)
    (transferMetadata h) (transferProgress h) (transferStartTime h)
    (alertDialog h) (wasManuallyStoppedRef h) (transferStartTimeRef h)
    (selectedPathRef h) (lastProgressRef h) (progressUpdateTimeout h)
    (timers h) (nextTimer h) (awaiting h).

Definition setSelectedPath (v : option string) (h : Hook) : Hook :=
  mkHook (senderStatus h) (ticket h) v (pathType h) (isLoading h)
    (transferMetadata h) (transferProgress h) (transferStartTime h)
    (alertDialog h) (wasManuallyStoppedRef h) (transferStartTimeRef h)
    (selectedPathRef h) (lastProgressRef h) (progressUpdateTimeout h)
    (timers h) (nextTimer h) (awaiting h).

Definition setPathType (v : option string) (h : Hook) : Hook :=
  mkHook (senderStatus h) (ticket h) (selectedPath h) v (isLoading h)
    (transferMetadata h) (transferProgress h) (transferStartTime h)
    (alertDialog h) (wasManuallyStoppedRef h) (transferStartTimeRef h)
    (selectedPathRef h) (lastProgressRef h) (progressUpdateTimeout h)
    (timers h) (nextTimer h) (awaiting h).

Definition setIsLoading (v : bool) (h : Hook) : Hook :=
  mkHook (senderStatus h) (ticket h) (selectedPath h) (pathType h) v
    (transferMetadata h) (transferProgress h) (transferStartTime h)
    (alertDialog h) (wasManuallyStoppedRef h) (transferStartTimeRef h)
    (selectedPathRef h) (lastProgressRef h) (progressUpdateTimeout h)
    (timers h) (nextTimer h) (awaiting h).

Definition setTransferMetadata (v : option TransferMetadata) (h : Hook) : Hook :=
  mkHook (senderStatus h) (ticket h) (selectedPath h) (pathType h) (isLoading h)
    v (transferProgress h) (transferStartTime h)
    (alertDialog h) (wasManuallyStoppedRef h) (transferStartTimeRef h)
    (selectedPathRef h) (lastProgressRef h) (progressUpdateTimeout h)
    (timers h) (nextTimer h) (awaiting h).

Definition setTransferProgress (v : option TransferProgress) (h : Hook) : Hook :=
  mkHook (senderStatus h) (ticket h) (selectedPath h) (pathType h) (isLoading h)
    (transferMetadata h) v (transferStartTime h)
    (alertDialog h) (wasManuallyStoppedRef h) (transferStartTimeRef h)
    (selectedPathRef h) (lastProgressRef h) (progressUpdateTimeout h)
    (timers h) (nextTimer h) (awaiting h).

Definition setTransferStartTime (v : option Z) (h : Hook) : Hook :=
  mkHook (senderStatus h) (ticket h) (selectedPath h) (pathType h) (isLoading h)
    (transferMetadata h) (transferProgress h) v
    (alertDialog h) (wasManuallyStoppedRef h) (transferStartTimeRef h)
    (selectedPathRef h) (lastProgressRef h) (progressUpdateTimeout h)
    (timers h) (nextTimer h) (awaiting h).

Definition setAlertDialog (v : AlertDialogState) (h : Hook) : Hook :=
  mkHook (senderStatus h) (ticket h) (selectedPath h) (pathType h) (isLoading h)
    (transferMetadata h) (transferProgress h) (transferStartTime h)
    v (wasManuallyStoppedRef h) (transferStartTimeRef h)
    (selectedPathRef h) (lastProgressRef h) (progressUpdateTimeout h)
    (timers h) (nextTimer h) (awaiting h).

Definition write_wasManuallyStoppedRef (v : bool) (h : Hook) : Hook :=
  mkHook (senderStatus h) (ticket h) (selectedPath h) (pathType h) (isLoading h)
    (transferMetadata h) (transferProgress h) (transferStartTime h)
    (alertDialog h) v (transferStartTimeRef h)
    (selectedPathRef h) (lastProgressRef h) (progressUpdateTimeout h)
    (timers h) (nextTimer h) (awaiting h).

Definition write_transferStartTimeRef (v : option Z) (h : Hook) : Hook :=
  mkHook (senderStatus h) (ticket h) (selectedPath h) (pathType h) (isLoading h)
    (transferMetadata h) (transferProgress h) (transferStartTime h)
    (alertDialog h) (wasManuallyStoppedRef h) v
    (selectedPathRef h) (lastProgressRef h) (progressUpdateTimeout h)
    (timers h) (nextTimer h) (awaiting h).

Definition write_selectedPathRef (v : option string) (h : Hook) : Hook :=
  mkHook (senderStatus h) (ticket h) (selectedPath h) (pathType h) (isLoading h)
    (transferMetadata h) (transferProgress h) (transferStartTime h)
    (alertDialog h) (wasManuallyStoppedRef h) (transferStartTimeRef h)
    v (lastProgressRef h) (progressUpdateTimeout h)
    (timers h) (nextTimer h) (awaiting h).

Definition write_lastProgressRef (v : option TransferProgress) (h : Hook) : Hook :=
  mkHook (senderStatus h) (ticket h) (selectedPath h) (pathType h) (isLoading h)
    (transferMetadata h) (transferProgress h) (transferStartTime h)
    (alertDialog h) (wasManuallyStoppedRef h) (transferStartTimeRef h)
    (selectedPathRef h) v (progressUpdateTimeout h)
    (timers h) (nextTimer h) (awaiting h).

Definition write_progressUpdateTimeout (v : option nat) (h : Hook) : Hook :=
  mkHook (senderStatus h) (ticket h) (selectedPath h) (pathType h) (isLoading h)
    (transferMetadata h) (transferProgress h) (transferStartTime h)
    (alertDialog h) (wasManuallyStoppedRef h) (transferStartTimeRef h)
    (selectedPathRef h) (lastProgressRef h) v
    (timers h) (nextTimer h) (awaiting h).

Definition with_timers (v : list Timer) (n : nat) (h : Hook) : Hook :=
  mkHook (senderStatus h) (ticket h) (selectedPath h) (pathType h) (isLoading h)
    (transferMetadata h) (transferProgress h) (transferStartTime h)
    (alertDialog h) (wasManuallyStoppedRef h) (transferStartTimeRef h)
    (selectedPathRef h) (lastProgressRef h) (progressUpdateTimeout h)
    v n (awaiting h).

Definition with_awaiting (v : list Continuation) (h : Hook) : Hook :=
  mkHook (senderStatus h) (ticket h) (selectedPath h) (pathType h) (isLoading h)
    (transferMetadata h) (transferProgress h) (transferStartTime h)
    (alertDialog h) (wasManuallyStoppedRef h) (transferStartTimeRef h)
    (selectedPathRef h) (lastProgressRef h) (progressUpdateTimeout h)
    (timers h) (nextTimer h) v.

(** ** Timers and alerts *)

(** [setTimeout(callback, delay)] at time [now]: a fresh handle, returned
    together with the state in which the timer is armed. *)
Definition setTimeout (act : TimerAction) (delay now : Z) (h : Hook) : nat * Hook :=
  let id := nextTimer h in
  (id, with_timers (timers h ++ [mkTimer id (now + delay) act]) (S id) h).

(** [clearTimeout(id)]: nothing happens when the timer already ran. *)
Definition clearTimeout (id : nat) (h : Hook) : Hook :=
  with_timers (filter (fun t => negb (Nat.eqb (tid t) id)) (timers h)) (nextTimer h) h.

(** [if (progressUpdateTimeout) clearTimeout(progressUpdateTimeout)] *)
Definition clearProgressTimeout (h : Hook) : Hook :=
  match progressUpdateTimeout h with
  | Some id => clearTimeout id h
  | None => h
  end.

Definition showAlert (ttl desc : string) (ty : AlertType) (h : Hook) : Hook :=
  setAlertDialog (mkAlert true ttl desc ty) h.

Definition closeAlert (h : Hook) : Hook :=
  let a := alertDialog h in
  setAlertDialog (mkAlert false (title a) (description a) (type a)) h.

Definition zero : Js.number := Js.of_Z 0.

(** [path.split('/').pop() || 'Unknown'] *)
Definition fileNameOf (path : string) : string :=
  match Js.pop (Js.split "/" path) with
  | Some s => if Js.truthy_string s then s else "Unknown"
  | None => "Unknown"
  end.

(** [startTime ? endTime - startTime : 0]; null and 0 are falsy. *)
Definition durationSince (startTime : option Z) (endTime : Z) : Z :=
  match startTime with
  | Some t => if Z.eqb t 0 then 0 else endTime - t
  | None => 0
  end.

(** [startTime || endTime] *)
Definition startOr (startTime : option Z) (endTime : Z) : Z :=
  match startTime with
  | Some t => if Z.eqb t 0 then endTime else t
  | None => endTime
  end.

(** ** The progress listener ([transfer-progress]) *)

Definition parseProgress (parts0 parts1 parts2 : string) : TransferProgress :=
  let bytesTransferred := Js.parseInt parts0 in
  let totalBytes := Js.parseInt parts1 in
  let speedInt := Js.parseInt parts2 in
  let speedBps := Js.div speedInt (Js.of_Z 1000) in
  let percentage :=
    if Js.gt totalBytes zero
    then Js.mul (Js.div bytesTransferred totalBytes) (Js.of_Z 100)
    else zero in
  mkProgress bytesTransferred totalBytes speedBps percentage.

(** The updater passed to [setSenderStatus] by the progress listener. *)
Definition firstProgressTransition (progressData : TransferProgress) (now : Z)
    (h : Hook) : Hook :=
  match senderStatus h with
  | WAITING_FOR_RECEIVER =>
      if Js.gt (totalBytes progressData) zero then
        setSenderStatus TRANSFERRING
          (write_wasManuallyStoppedRef false
            (setTransferMetadata None
              (setTransferProgress None
                (setTransferStartTime (Some now) h))))
      else h
  | _ => h
  end.

Definition progress_listener (now : Z) (payload : Payload) (h : Hook) : Hook :=
  match payload with
  | PNotAString => h                      (* split throws; caught and logged *)
  | PString s =>
      match Js.split ":" s with
      | [p0; p1; p2] =>
          let progressData := parseProgress p0 p1 p2 in
          let h1 := write_lastProgressRef (Some progressData) h in
          let h2 := firstProgressTransition progressData now h1 in
          let h3 := clearProgressTimeout h2 in
          let '(id, h4) := setTimeout (ShowProgress progressData) 100 now h3 in
          write_progressUpdateTimeout (Some id) h4
      | _ => h
      end
  end.

(** ** The completion listener ([transfer-completed]) *)

(** The listener reads the current status through an updater that returns
    its argument ([setSenderStatus(prev => { currentState = prev; return prev })]);
    the embedding takes the updater to run at once, on the current status. *)

(** [setTransferMetadata(metadata)] followed by the 0 ms timer that sets
    TRANSFER_COMPLETE. *)
Definition commitCompletion (now : Z) (metadata : TransferMetadata) (h : Hook) : Hook :=
  snd (setTimeout CommitComplete 0 now (setTransferMetadata (Some metadata) h)).

Definition completed_listener (now : Z) (h : Hook) : Hook :=
  if wasManuallyStoppedRef h then h
  else match senderStatus h with
  | TRANSFERRING =>
      let h1 := setTransferProgress None (clearProgressTimeout h) in
      let endTime := now in
      let startTime := transferStartTimeRef h in
      let path := selectedPathRef h in
      let duration := durationSince startTime endTime in
      match path with
      | Some p =>
          if Js.truthy_string p
          then with_awaiting
                 (awaiting h1 ++ [AwaitFileSize p startTime endTime duration]) h1
          else commitCompletion now
                 (mkMetadata "Unknown" 0 duration (startOr startTime endTime) endTime None) h1
      | None =>
          commitCompletion now
            (mkMetadata "Unknown" 0 duration (startOr startTime endTime) endTime None) h1
      end
  | _ => h
  end.

(** The completion listener after [await invoke('get_file_size')]. *)
Definition resumeFileSize (now : Z) (path : string) (startTime : option Z)
    (endTime duration : Z) (r : Reply) (h : Hook) : option Hook :=
  match r with
  | Resolved (VNumber fileSize) =>
      Some (commitCompletion now
              (mkMetadata (fileNameOf path) fileSize duration
                 (startOr startTime endTime) endTime None) h)
  | Rejected _ =>
      Some (commitCompletion now
              (mkMetadata (fileNameOf path) 0 duration
                 (startOr startTime endTime) endTime None) h)
  | _ => None
  end.

(** ** The failure listener ([transfer-failed]) *)

Definition failed_listener (now : Z) (h : Hook) : Hook :=
  if wasManuallyStoppedRef h then h
  else
    let h1 := setTransferProgress None (clearProgressTimeout h) in
    let endTime := now in
    let startTime := transferStartTimeRef h in
    let path := selectedPathRef h in
    let duration := durationSince startTime endTime in
    let fileName := match path with Some p => fileNameOf p | None => "Unknown" end in
    let metadata :=
      mkMetadata fileName 0 duration (startOr startTime endTime) endTime (Some true) in
    let h2 := setTransferMetadata (Some metadata) h1 in
    let h3 := snd (setTimeout CommitStopped 0 now h2) in
    snd (setTimeout FailedDecay 2000 now h3).

(** ** Commands *)

(** [handleFileSelect(path)] up to [await invoke('check_path_type')]. *)
Definition handleFileSelect (path : string) (h : Hook) : Hook :=
  let h1 := setSelectedPath (Some path) h in
  with_awaiting (awaiting h1 ++ [AwaitPathType]) h1.

(** [startSharing()] up to [await invoke('start_sharing')]. *)
Definition startSharing (h : Hook) : Hook :=
  match selectedPath h with
  | Some p =>
      if Js.truthy_string p
      then let h1 := setIsLoading true h in
           with_awaiting (awaiting h1 ++ [AwaitStartSharing]) h1
      else h
  | None => h
  end.

(** The block of setters that [stopSharing] runs on each of its three ways
    to IDLE. *)
Definition resetToIdle (h : Hook) : Hook :=
  write_wasManuallyStoppedRef false
    (setTransferMetadata None
      (setTransferStartTime None
        (setTransferProgress None
          (setPathType None
            (setSelectedPath None
              (setTicket None
                (setSenderStatus IDLE h))))))).

(** [stopSharing()] (and [resetForNewTransfer()], which only calls it) up to
    its first [await]. *)
Definition stopSharing (now : Z) (h : Hook) : Hook :=
  match senderStatus h with
  | WAITING_FOR_RECEIVER =>
      with_awaiting (awaiting h ++ [AwaitStopWhileWaiting]) h
  | TRANSFERRING =>
      let h1 := write_wasManuallyStoppedRef true h in
      let endTime := now in
      let fileName :=
        match selectedPath h with Some p => fileNameOf p | None => "Unknown" end in
      let stoppedMetadata :=
        mkMetadata fileName 0 0 (startOr (transferStartTime h) endTime) endTime
          (Some true) in
      let h2 := setSenderStatus TRANSFER_STOPPED
                  (setTransferMetadata (Some stoppedMetadata) h1) in
      with_awaiting (awaiting h2 ++ [AwaitStopWhileTransferring]) h2
  | TRANSFER_COMPLETE | TRANSFER_STOPPED =>
      (* the background [invoke('stop_sharing')] only logs *)
      resetToIdle (write_wasManuallyStoppedRef false h)
  | IDLE | FILE_SELECTED => h
  end.

(** ** Continuations and timer callbacks *)

(** The rest of an async function once its [invoke] settles; [None] when the
    reply is not of the type the command returns. *)
Definition resume (now : Z) (k : Continuation) (r : Reply) (h : Hook) : option Hook :=
  match k with
  | AwaitPathType =>
      match r with
      | Resolved (VString ty) =>
          Some (setSenderStatus FILE_SELECTED (setPathType (Some ty) h))
      | Rejected _ => Some (setPathType None h)
      | _ => None
      end
  | AwaitStartSharing =>
      match r with
      | Resolved (VString result) =>
          Some (setIsLoading false
                  (setSenderStatus WAITING_FOR_RECEIVER (setTicket (Some result) h)))
      | Rejected error =>
          Some (setIsLoading false
                  (showAlert "Sharing Failed"
                     ("Failed to start sharing: " ++ error)%string alert_error h))
      | _ => None
      end
  | AwaitStopWhileWaiting =>
      match r with
      | Resolved _ => Some (resetToIdle h)
      | Rejected error =>
          Some (showAlert "Stop Sharing Failed"
                  ("Failed to stop sharing: " ++ error)%string alert_error h)
      end
  | AwaitStopWhileTransferring =>
      match r with
      | Resolved _ => Some (snd (setTimeout StopDecay 2000 now h))
      | Rejected error =>
          Some (showAlert "Stop Sharing Failed"
                  ("Failed to stop sharing: " ++ error)%string alert_error h)
      end
  | AwaitFileSize path startTime endTime duration =>
      resumeFileSize now path startTime endTime duration r h
  end.

Fixpoint remove_nth {A} (i : nat) (xs : list A) : list A :=
  match i, xs with
  | _, [] => []
  | O, _ :: r => r
  | S j, x :: r => x :: remove_nth j r
  end.

(** The [i]-th pending [invoke] settles with [r]. *)
Definition settle (now : Z) (i : nat) (r : Reply) (h : Hook) : Hook :=
  match nth_error (awaiting h) i with
  | Some k =>
      match resume now k r (with_awaiting (remove_nth i (awaiting h)) h) with
      | Some h' => h'
      | None => h
      end
  | None => h
  end.

Definition runTimer (act : TimerAction) (h : Hook) : Hook :=
  match act with
  | ShowProgress progressData =>
      (* [progressData] is an object the state never held: the effect that
         copies [transferProgress] into [lastProgressRef] runs *)
      write_lastProgressRef (Some progressData)
        (setTransferProgress (Some progressData) h)
  | CommitComplete => setSenderStatus TRANSFER_COMPLETE h
  | CommitStopped => setSenderStatus TRANSFER_STOPPED h
  | FailedDecay => setTransferMetadata None (setSenderStatus IDLE h)
  | StopDecay => resetToIdle h
  end.

(** The timer [id] runs at [now]: it must be armed and due. *)
Definition fire (now : Z) (id : nat) (h : Hook) : Hook :=
  match find (fun t => Nat.eqb (tid t) id) (timers h) with
  | Some t => if Z.leb (due t) now then runTimer (action t) (clearTimeout id h) else h
  | None => h
  end.

(** ** Triggers and the event loop *)

Inductive Trigger : Type :=
| HandleFileSelect (path : string)
| StartSharing
| StopSharing
| CloseAlert
| ProgressEvent (payload : Payload)
| CompletedEvent
| FailedEvent
| Settle (i : nat) (r : Reply)
| Fire (id : nat).

Definition react (now : Z) (t : Trigger) (h : Hook) : Hook :=
  match t with
  | HandleFileSelect path => handleFileSelect path h
  | StartSharing => startSharing h
  | StopSharing => stopSharing now h
  | CloseAlert => closeAlert h
  | ProgressEvent payload => progress_listener now payload h
  | CompletedEvent => completed_listener now h
  | FailedEvent => failed_listener now h
  | Settle i r => settle now i r h
  | Fire id => fire now id h
  end.

(** The three "sync refs with state" effects, run after the render that
    follows a trigger.  The first two copy values; the third runs only when
    [transferProgress] changed, which for the triggers other than a
    [ShowProgress] timer means: it was set and is now null. *)
Definition sync_refs (before after : Hook) : Hook :=
  let h1 := write_transferStartTimeRef (transferStartTime after) after in
  let h2 := write_selectedPathRef (selectedPath after) h1 in
  match transferProgress before, transferProgress after with
  | Some _, None => write_lastProgressRef None h2
  | _, _ => h2
  end.

(** One trigger, run to completion at time [now]: the handler, then the
    render and its effects.  Triggers never overlap; what an [await] leaves
    behind is resumed by a later [Settle]. *)
Definition step (now : Z) (t : Trigger) (h : Hook) : Hook :=
  sync_refs h (react now t h).

Definition run (evs : list (Z * Trigger)) (h : Hook) : Hook :=
  fold_left (fun h e => step (fst e) (snd e) h) evs h.


(** ** Predicates used in the statements *)

(** The two refs that only mirror state agree with it; true after every
    trigger. *)
Definition synced (h : Hook) : Prop :=
  transferStartTimeRef h = transferStartTime h /\
  selectedPathRef h = selectedPath h.

Definition is_commit_complete (t : Timer) : bool :=
  match action t with CommitComplete => true | _ => false end.

Definition is_await_file_size (k : Continuation) : bool :=
  match k with AwaitFileSize _ _ _ _ => true | _ => false end.

(** A completion is committed or on its way: the status is TRANSFER_COMPLETE,
    or the 0 ms timer that sets it is armed, or the completion listener is
    suspended at the file-size lookup. *)
Definition completion_in_progress (h : Hook) : bool :=
  SenderStatus_beq (senderStatus h) TRANSFER_COMPLETE
  || existsb is_commit_complete (timers h)
  || existsb is_await_file_size (awaiting h).

(** Some completion notification of the trace arrived in TRANSFERRING with
    the manual-stop flag down. *)
Definition completion_accepted (evs : list (Z * Trigger)) : Prop :=
  exists pre now post,
    evs = pre ++ (now, CompletedEvent) :: post /\
    senderStatus (run pre initial) = TRANSFERRING /\
    wasManuallyStoppedRef (run pre initial) = false.

(** *** Traces of the scenarios *)

(** Select [/tmp/a.bin], classified as a file; start, ticket ["abc123"]. *)
Definition to_waiting : list (Z * Trigger) :=
  [ (0, HandleFileSelect "/tmp/a.bin");
    (1, Settle 0 (Resolved (VString "file")));
    (2, StartSharing);
    (3, Settle 0 (Resolved (VString "abc123"))) ].

(** ... then the first progress sample: TRANSFERRING; its timer has handle 1. *)
Definition to_transferring : list (Z * Trigger) :=
  to_waiting ++ [ (1000, ProgressEvent (PString "1024:2048:500000")) ].

(** ... then a completion, the file size and the 0 ms timer (handle 2). *)
Definition to_complete : list (Z * Trigger) :=
  to_transferring ++
  [ (2000, CompletedEvent);
    (2010, Settle 0 (Resolved (VNumber 2048)));
    (2010, Fire 2) ].

(** *** Manual stop *)




(** *** Ticket *)



(** *** Scenarios in which the hook departs from the spec *)

(** The first sample becomes visible, then the backend reports a failure;
    the failure listener's timers get the handles 2 (0 ms) and 3 (2000 ms). *)
Definition failure_then_decay : list (Z * Trigger) :=
  to_transferring ++
  [ (1100, Fire 1);
    (1500, FailedEvent);
    (1500, Fire 2);
    (3500, Fire 3) ].

(** A payload of three fields whose first field is not a number, received
    while waiting for the receiver. *)
Definition malformed_in_waiting : list (Z * Trigger) :=
  to_waiting ++ [ (1000, ProgressEvent (PString "abc:2048:0")) ].



(** A first attempt is stopped during the transfer (its decay timer, handle
    2, is due at 4010) and acknowledged by a reset; a second attempt is
    selected and started before the timer is due. *)
Definition second_attempt_waiting : list (Z * Trigger) :=
  to_transferring ++
  [ (1100, Fire 1);
    (2000, StopSharing);
    (2010, Settle 0 (Resolved VVoid));
    (2500, StopSharing);
    (2600, HandleFileSelect "/tmp/b.bin");
    (2610, Settle 0 (Resolved (VString "file")));
    (2700, StartSharing);
    (2710, Settle 0 (Resolved (VString "def456"))) ].

(** A sample without a total arrives while waiting; the user stops, the
    backend acknowledges; the sample's timer (handle 1) is still armed. *)
Definition stopped_while_waiting : list (Z * Trigger) :=
  to_waiting ++
  [ (1000, ProgressEvent (PString "0:0:0"));
    (1010, StopSharing);
    (1020, Settle 0 (Resolved VVoid)) ].

(** *** Metadata *)





(** *** Coalescing *)

Definition is_show_progress (t : Timer) : bool :=
  match action t with ShowProgress _ => true | _ => false end.

(** Handles are fresh, and an armed coalescing timer is the one that
    [progressUpdateTimeout] names. *)
Definition timer_ok (h : Hook) (t : Timer) : Prop :=
  (tid t < nextTimer h)%nat /\
  (is_show_progress t = true -> progressUpdateTimeout h = Some (tid t)).

Definition timers_ok (h : Hook) : Prop := Forall (timer_ok h) (timers h).

(** The transfer of the scenario once its first sample is visible. *)
Definition two_samples_base : list (Z * Trigger) :=
  to_transferring ++ [ (1100, Fire 1) ].

(** The visible updates that are still to come. *)
Definition pending_updates (h : Hook) : list Timer :=
  filter is_show_progress (timers h).

(** *** Well-formed payloads *)

(** An integer as the transfer engine prints it: decimal digits, with a
    leading minus sign when negative. *)
Definition decimal (z : Z) : string :=
  DecimalString.NilZero.string_of_int (Z.to_int z).

(** The wire payload [bytesTransferred:totalBytes:speedScaled]. *)
Definition payload_of (b t s : Z) : string :=
  (decimal b ++ ":" ++ decimal t ++ ":" ++ decimal s)%string.

(** No code unit of [s] is [c]. *)
Fixpoint free_of (c : ascii) (s : string) : bool :=
  match s with
  | EmptyString => true
  | String a r => negb (Ascii.eqb a c) && free_of c r
  end.

(** * Properties *)

(** ** Basic facts about lists, timers and the event loop *)

Lemma existsb_filter_true {A} (f g : A -> bool) (l : list A) :
  existsb f (filter g l) = true -> existsb f l = true.
Proof.
  induction l as [|x l IH]; simpl; [easy|].
  destruct (g x); simpl; intros H.
  - apply orb_true_iff in H. destruct H as [H|H].
    + now rewrite H.
    + rewrite (IH H). apply orb_true_r.
  - rewrite (IH H). apply orb_true_r.
Qed.

Lemma existsb_remove_nth_true {A} (f : A -> bool) (i : nat) (l : list A) :
  existsb f (remove_nth i l) = true -> existsb f l = true.
Proof.
  revert i. induction l as [|x l IH]; intros [|i]; simpl; try easy.
  - intros ->. apply orb_true_r.
  - intros H. apply orb_true_iff in H. destruct H as [H|H].
    + now rewrite H.
    + rewrite (IH _ H). apply orb_true_r.
Qed.

Lemma existsb_nth_error_true {A} (f : A -> bool) (i : nat) (l : list A) (x : A) :
  nth_error l i = Some x -> f x = true -> existsb f l = true.
Proof.
  intros Hn Hf. apply existsb_exists. exists x. split; [|exact Hf].
  eapply nth_error_In; eauto.
Qed.

Lemma existsb_find_true {A} (f g : A -> bool) (l : list A) (x : A) :
  find g l = Some x -> f x = true -> existsb f l = true.
Proof.
  intros Hn Hf. apply existsb_exists. exists x. split; [|exact Hf].
  apply find_some in Hn. tauto.
Qed.

Lemma run_app (evs1 evs2 : list (Z * Trigger)) (h : Hook) :
  run (evs1 ++ evs2) h = run evs2 (run evs1 h).
Proof. unfold run. apply fold_left_app. Qed.

Lemma run_snoc (evs : list (Z * Trigger)) (now : Z) (t : Trigger) (h : Hook) :
  run (evs ++ [(now, t)]) h = step now t (run evs h).
Proof. now rewrite run_app. Qed.

(** [sync_refs] touches the refs only. *)
Lemma sync_refs_senderStatus b a : senderStatus (sync_refs b a) = senderStatus a.
Proof. unfold sync_refs. destruct (transferProgress b), (transferProgress a) eqn:E; simpl; congruence. Qed.

Lemma sync_refs_timers b a : timers (sync_refs b a) = timers a.
Proof. unfold sync_refs. destruct (transferProgress b), (transferProgress a) eqn:E; simpl; congruence. Qed.

Lemma sync_refs_awaiting b a : awaiting (sync_refs b a) = awaiting a.
Proof. unfold sync_refs. destruct (transferProgress b), (transferProgress a) eqn:E; simpl; congruence. Qed.



Lemma sync_refs_transferProgress b a :
  transferProgress (sync_refs b a) = transferProgress a.
Proof. unfold sync_refs. destruct (transferProgress b), (transferProgress a) eqn:E; simpl; congruence. Qed.

Lemma sync_refs_selectedPath b a : selectedPath (sync_refs b a) = selectedPath a.
Proof. unfold sync_refs. destruct (transferProgress b), (transferProgress a) eqn:E; simpl; congruence. Qed.


Lemma sync_refs_alertDialog b a : alertDialog (sync_refs b a) = alertDialog a.
Proof. unfold sync_refs. destruct (transferProgress b), (transferProgress a) eqn:E; simpl; congruence. Qed.

Lemma sync_refs_synced b a : synced (sync_refs b a).
Proof.
  unfold synced, sync_refs.
  destruct (transferProgress b), (transferProgress a); split; reflexivity.
Qed.

Lemma sync_refs_same (h : Hook) : synced h -> sync_refs h h = h.
Proof.
  intros [H1 H2]. unfold sync_refs. destruct h; simpl in *. subst.
  destruct transferProgress0; reflexivity.
Qed.

Lemma completed_listener_rejects (now : Z) (h : Hook) :
  senderStatus h <> TRANSFERRING -> completed_listener now h = h.
Proof.
  intros Hs. unfold completed_listener.
  destruct (wasManuallyStoppedRef h); [reflexivity|].
  destruct (senderStatus h); congruence.
Qed.

(** A completion in progress after a trigger was in progress before it, or
    the trigger is a completion notification taken in TRANSFERRING with the
    flag down. *)
Ltac split_orb H :=
  repeat (apply orb_true_iff in H; destruct H as [H|H]).

(** Closes [b1 || b2 || b3 = true] from a hypothesis giving one disjunct
    (possibly under a [filter] or a [remove_nth]). *)
Ltac keep_pending H :=
  split_orb H;
  try match goal with
      | Hs : senderStatus _ = _ |- _ => rewrite Hs in H; simpl in H
      end;
  try discriminate H;
  try apply existsb_filter_true in H;
  try apply existsb_remove_nth_true in H;
  simpl; rewrite ?orb_true_iff; auto 6.

(** A completion in progress after a trigger was in progress before it, or
    the trigger is a completion notification taken in TRANSFERRING with the
    flag down. *)
Lemma completion_in_progress_step (now : Z) (t : Trigger) (h : Hook) :
  completion_in_progress (step now t h) = true ->
  completion_in_progress h = true \/
  (t = CompletedEvent /\ senderStatus h = TRANSFERRING /\
   wasManuallyStoppedRef h = false).
Proof.
  unfold completion_in_progress, step.
  rewrite sync_refs_senderStatus, sync_refs_timers, sync_refs_awaiting.
  destruct t; simpl.
  - (* handleFileSelect *)
    unfold handleFileSelect. simpl.
    rewrite existsb_app. simpl. rewrite orb_false_r. auto.
  - (* startSharing *)
    unfold startSharing. destruct (selectedPath h) as [p|]; [|auto].
    destruct (Js.truthy_string p); [|auto]. simpl.
    rewrite existsb_app. simpl. rewrite orb_false_r. auto.
  - (* stopSharing *)
    unfold stopSharing.
    destruct (senderStatus h) eqn:Hs; simpl; rewrite ?Hs; simpl;
      rewrite ?existsb_app; simpl; rewrite ?orb_false_r; auto.
  - auto.
  - (* progress *)
    unfold progress_listener. destruct payload as [s|]; [|auto].
    destruct (Js.split ":" s) as [|p0 [|p1 [|p2 [|? ?]]]]; auto.
    unfold firstProgressTransition, clearProgressTimeout. simpl.
    destruct (senderStatus h) eqn:Hs; simpl;
      try destruct (Js.gt _ _); simpl; rewrite ?Hs;
      destruct (progressUpdateTimeout h); simpl;
      rewrite existsb_app; simpl; rewrite orb_false_r;
      intros H; left; keep_pending H.
  - (* completed *)
    unfold completed_listener.
    destruct (wasManuallyStoppedRef h) eqn:Hf; [auto|].
    destruct (senderStatus h) eqn:Hs; rewrite ?Hs; auto.
  - (* failed *)
    unfold failed_listener, clearProgressTimeout.
    destruct (wasManuallyStoppedRef h) eqn:Hf; [auto|]. simpl.
    destruct (progressUpdateTimeout h); simpl;
      rewrite !existsb_app; simpl; rewrite !orb_false_r;
      intros H; left; keep_pending H.
  - (* settle *)
    unfold settle. destruct (nth_error (awaiting h) i) as [k|] eqn:Hn; [|auto].
    destruct k; simpl.
    + destruct r as [[ty| |]|]; simpl; auto; intros H; left; keep_pending H.
    + destruct r as [[ty| |]|]; simpl; auto; intros H; left; keep_pending H.
    + destruct r as [v|]; simpl; auto; intros H; left; keep_pending H.
    + destruct r as [v|]; simpl; auto; rewrite ?existsb_app; simpl;
        rewrite ?orb_false_r; intros H; left; keep_pending H.
    + intros _. left.
      rewrite (existsb_nth_error_true is_await_file_size _ _ _ Hn eq_refl).
      apply orb_true_r.
  - (* fire *)
    unfold fire. destruct (find _ (timers h)) as [tm|] eqn:Hfind; [|auto].
    destruct (Z.leb (due tm) now); [|auto].
    destruct (action tm) eqn:Ha; simpl;
      intros H; left;
      try (rewrite (existsb_find_true is_commit_complete _ _ _ Hfind)
             by (unfold is_commit_complete; now rewrite Ha);
           now rewrite orb_true_r);
      keep_pending H.
Qed.

Lemma run_synced (evs : list (Z * Trigger)) : synced (run evs initial).
Proof.
  induction evs as [|[now t] evs _] using rev_ind.
  - split; reflexivity.
  - rewrite run_snoc. apply sync_refs_synced.
Qed.

Lemma completion_in_progress_accepted (evs : list (Z * Trigger)) :
  completion_in_progress (run evs initial) = true -> completion_accepted evs.
Proof.
  induction evs as [|[now t] evs IH] using rev_ind.
  - discriminate.
  - rewrite run_snoc. intros H.
    apply completion_in_progress_step in H.
    destruct H as [H | (-> & Hs & Hf)].
    + destruct (IH H) as (pre & n & post & -> & Hs & Hf).
      exists pre, n, (post ++ [(now, t)]).
      rewrite <- app_assoc. simpl. auto.
    + exists evs, now, []. auto.
Qed.

(** ** C1: completion notifications outside TRANSFERRING *)

(** C1.  A [transfer-completed] notification received while the status is
    not TRANSFERRING changes nothing: the listener returns the hook as it
    was, so after any sequence of triggers the whole trigger is the identity
    (no transition, no metadata).  And whenever a sequence of triggers ends
    in TRANSFER_COMPLETE, it contains a completion notification that arrived
    in TRANSFERRING with the manual-stop flag false. *)
Theorem C1_completed_outside_transferring :
  (forall (now : Z) (h : Hook),
     senderStatus h <> TRANSFERRING -> completed_listener now h = h) /\
  (forall (evs : list (Z * Trigger)) (now : Z),
     senderStatus (run evs initial) <> TRANSFERRING ->
     run (evs ++ [(now, CompletedEvent)]) initial = run evs initial) /\
  (forall evs : list (Z * Trigger),
     senderStatus (run evs initial) = TRANSFER_COMPLETE ->
     completion_accepted evs).
Proof.
  split; [|split].
  - exact completed_listener_rejects.
  - intros evs now Hs. rewrite run_snoc. unfold step. simpl.
    rewrite (completed_listener_rejects _ _ Hs).
    apply sync_refs_same, run_synced.
  - intros evs Hs. apply completion_in_progress_accepted.
    unfold completion_in_progress. now rewrite Hs.
Qed.

(** The handshake completion of the spec's scenario (in
    WAITING_FOR_RECEIVER) is dropped, and the completed run of the scenario
    has its accepted notification. *)
Lemma C1_completed_outside_transferring_witness :
  run (to_waiting ++ [(500, CompletedEvent)]) initial = run to_waiting initial /\
  completion_accepted to_complete.
Proof.
  split.
  - apply (proj1 (proj2 C1_completed_outside_transferring) to_waiting 500).
    vm_compute. discriminate.
  - apply (proj2 (proj2 C1_completed_outside_transferring) to_complete).
    vm_compute. reflexivity.
Defined.

(** ** C2: notifications after a manual stop *)









(** ** C3: what a transition to IDLE clears *)

(** The block of setters shared by the three IDLE paths of [stopSharing]
    clears everything at once. *)
Lemma resetToIdle_clears (h : Hook) :
  let h' := resetToIdle h in
  senderStatus h' = IDLE /\ ticket h' = None /\ selectedPath h' = None /\
  pathType h' = None /\ transferProgress h' = None /\
  transferStartTime h' = None /\ transferMetadata h' = None /\
  wasManuallyStoppedRef h' = false.
Proof. simpl. repeat split. Qed.

Lemma stopSharing_terminal_resets (now : Z) (h : Hook) :
  senderStatus h = TRANSFER_COMPLETE \/ senderStatus h = TRANSFER_STOPPED ->
  stopSharing now h = resetToIdle (write_wasManuallyStoppedRef false h).
Proof. intros [Hs|Hs]; unfold stopSharing; now rewrite Hs. Qed.

Lemma stop_while_waiting_resets (now : Z) (v : Value) (h : Hook) :
  resume now AwaitStopWhileWaiting (Resolved v) h = Some (resetToIdle h).
Proof. reflexivity. Qed.

(** C3.  The decay timer armed by [stopSharing] runs the block that clears
    the ticket, the selection, the progress, the metadata and the flag
    together.  The decay timer armed by the failure listener is another way
    to IDLE and sets only the status and the metadata: it leaves the ticket
    and the selected path as they are, so after a failed transfer the hook
    is in IDLE with the ticket ["abc123"] and the path still in place. *)
Theorem C3_failure_decay_keeps_ticket_and_path :
  (forall h : Hook,
     runTimer StopDecay h = resetToIdle h /\
     ticket (resetToIdle h) = None /\ selectedPath (resetToIdle h) = None /\
     transferProgress (resetToIdle h) = None /\
     transferMetadata (resetToIdle h) = None /\
     wasManuallyStoppedRef (resetToIdle h) = false) /\
  (forall h : Hook,
     senderStatus (runTimer FailedDecay h) = IDLE /\
     ticket (runTimer FailedDecay h) = ticket h /\
     selectedPath (runTimer FailedDecay h) = selectedPath h /\
     transferProgress (runTimer FailedDecay h) = transferProgress h /\
     wasManuallyStoppedRef (runTimer FailedDecay h) = wasManuallyStoppedRef h) /\
  senderStatus (run failure_then_decay initial) = IDLE /\
  ticket (run failure_then_decay initial) = Some "abc123" /\
  selectedPath (run failure_then_decay initial) = Some "/tmp/a.bin".
Proof. repeat split. Qed.

(** ** C4: the ticket and the status *)








(** ** C5: the sample computed from a well-formed payload *)

Lemma progress_listener_lastProgressRef (now : Z) (s a b c : string) (h : Hook) :
  Js.split ":" s = [a; b; c] ->
  lastProgressRef (progress_listener now (PString s) h) =
  Some (parseProgress a b c).
Proof.
  intros Hs. unfold progress_listener. rewrite Hs.
  unfold firstProgressTransition, clearProgressTimeout. simpl.
  destruct (senderStatus h); simpl; try destruct (Js.gt _ _); simpl;
    destruct (progressUpdateTimeout h); reflexivity.
Qed.

Lemma split_free (c : ascii) (s : string) :
  free_of c s = true -> Js.split c s = [s].
Proof.
  induction s as [|a r IH]; simpl; [reflexivity|].
  intros H. apply andb_true_iff in H. destruct H as [Ha Hr].
  apply negb_true_iff in Ha. rewrite Ha, (IH Hr). reflexivity.
Qed.

Lemma split_field (c : ascii) (s r : string) :
  free_of c s = true ->
  Js.split c (s ++ String c r)%string = s :: Js.split c r.
Proof.
  induction s as [|a s IH]; simpl.
  - intros _. now rewrite Ascii.eqb_refl.
  - intros H. apply andb_true_iff in H. destruct H as [Ha Hs].
    apply negb_true_iff in Ha. rewrite Ha, (IH Hs). reflexivity.
Qed.

Lemma uint_free_of_colon (d : Decimal.uint) :
  free_of ":" (DecimalString.NilEmpty.string_of_uint d) = true.
Proof. induction d; simpl; auto. Qed.

Lemma nilzero_free_of_colon (d : Decimal.uint) :
  free_of ":" (DecimalString.NilZero.string_of_uint d) = true.
Proof.
  destruct d; [reflexivity | ..];
    match goal with
    | |- free_of _ (DecimalString.NilZero.string_of_uint ?x) = true =>
        exact (uint_free_of_colon x)
    end.
Qed.

Lemma decimal_free_of_colon (z : Z) : free_of ":" (decimal z) = true.
Proof.
  unfold decimal. destruct z as [|p|p]; simpl; [reflexivity| |].
  - apply nilzero_free_of_colon.
  - apply nilzero_free_of_colon.
Qed.

Lemma split_payload (b t s : Z) :
  Js.split ":" (payload_of b t s) = [decimal b; decimal t; decimal s].
Proof.
  unfold payload_of. simpl.
  rewrite split_field by apply decimal_free_of_colon.
  rewrite split_field by apply decimal_free_of_colon.
  rewrite split_free by apply decimal_free_of_colon.
  reflexivity.
Qed.

(** Reading the digits of [d] after [acc]: [acc] shifted by the length of
    [d], plus the value of [d]. *)
Lemma leading_digits_uint (d : Decimal.uint) (acc : Z) :
  Js.leading_digits (DecimalString.NilEmpty.string_of_uint d) acc true =
  Some (acc * 10 ^ Z.of_N (DecimalPos.Unsigned.usize d)
        + Z.of_N (DecimalPos.Unsigned.of_lu (Decimal.rev d))).
Proof.
  revert acc.
  induction d as [|d IH|d IH|d IH|d IH|d IH|d IH|d IH|d IH|d IH|d IH];
    intros acc;
    [ simpl; f_equal; lia | .. ];
    (match goal with
     | |- context [Decimal.rev (?c d)] =>
         change (Decimal.rev (c d)) with (Decimal.revapp d (c Decimal.Nil));
         rewrite (DecimalPos.Unsigned.of_lu_revapp d (c Decimal.Nil))
     end);
    cbn [DecimalString.NilEmpty.string_of_uint Js.leading_digits];
    (match goal with
     | |- context [Js.digit_value ?c] =>
         let v := eval vm_compute in (Js.digit_value c) in
         change (Js.digit_value c) with v
     end);
    cbv iota; rewrite IH;
    cbn [DecimalPos.Unsigned.usize DecimalPos.Unsigned.of_lu];
    rewrite N2Z.inj_succ, Z.pow_succ_r by lia;
    rewrite N2Z.inj_add, N2Z.inj_mul, N2Z.inj_pow;
    f_equal; simpl Z.of_N; ring.
Qed.

Lemma leading_digits_first (d : Decimal.uint) (acc : Z) :
  d <> Decimal.Nil ->
  Js.leading_digits (DecimalString.NilEmpty.string_of_uint d) acc false =
  Js.leading_digits (DecimalString.NilEmpty.string_of_uint d) acc true.
Proof. destruct d; [congruence | reflexivity ..]. Qed.

Lemma leading_digits_pos (p : positive) :
  Js.leading_digits
    (DecimalString.NilEmpty.string_of_uint (Pos.to_uint p)) 0 false =
  Some (Z.pos p).
Proof.
  rewrite leading_digits_first by apply DecimalPos.Unsigned.to_uint_nonnil.
  rewrite leading_digits_uint.
  rewrite <- DecimalPos.Unsigned.of_uint_alt, DecimalPos.Unsigned.of_to.
  reflexivity.
Qed.

(** A number printed in decimal starts with a digit: [parseInt] has no white
    space and no sign to skip. *)
Lemma parseInt_unsigned (d : Decimal.uint) :
  d <> Decimal.Nil ->
  Js.parseInt (DecimalString.NilEmpty.string_of_uint d) =
  match Js.leading_digits (DecimalString.NilEmpty.string_of_uint d) 0 false with
  | Some m => Js.of_Z_signed false m
  | None => Js.NaN
  end.
Proof. destruct d; [congruence | reflexivity ..]. Qed.

Lemma nilzero_nonnil (d : Decimal.uint) :
  d <> Decimal.Nil ->
  DecimalString.NilZero.string_of_uint d = DecimalString.NilEmpty.string_of_uint d.
Proof. destruct d; [congruence | reflexivity ..]. Qed.

(** [parseInt] reads back what [decimal] printed. *)
Lemma parseInt_decimal (z : Z) : Js.parseInt (decimal z) = Js.of_Z z.
Proof.
  unfold decimal. destruct z as [|p|p]; [reflexivity| |].
  - simpl. rewrite nilzero_nonnil by apply DecimalPos.Unsigned.to_uint_nonnil.
    rewrite parseInt_unsigned by apply DecimalPos.Unsigned.to_uint_nonnil.
    now rewrite leading_digits_pos.
  - simpl. rewrite nilzero_nonnil by apply DecimalPos.Unsigned.to_uint_nonnil.
    unfold Js.parseInt. cbn [Js.trim_start].
    change (Js.is_whitespace "-") with false. cbv iota.
    rewrite leading_digits_pos. reflexivity.
Qed.

Lemma parseProgress_decimal (b t s : Z) :
  parseProgress (decimal b) (decimal t) (decimal s) =
  mkProgress (Js.of_Z b) (Js.of_Z t) (Js.div (Js.of_Z s) (Js.of_Z 1000))
    (if Js.gt (Js.of_Z t) zero
     then Js.mul (Js.div (Js.of_Z b) (Js.of_Z t)) (Js.of_Z 100)
     else zero).
Proof. unfold parseProgress. now rewrite !parseInt_decimal. Qed.

(** [x <= 0] excludes [x > 0] (NaN satisfies neither). *)
Lemma le_zero_not_gt (x : Js.number) :
  Js.le x zero = true -> Js.gt x zero = false.
Proof.
  unfold Js.le, Js.gt, zero, SFleb, SFltb.
  destruct x as [s|s| |s m e]; simpl; try destruct s; simpl;
    intros H; try discriminate H; reflexivity.
Qed.

Lemma progress_prelude_nextTimer (d : TransferProgress) (now : Z) (h : Hook) :
  nextTimer
    (clearProgressTimeout
       (firstProgressTransition d now (write_lastProgressRef (Some d) h))) =
  nextTimer h.
Proof.
  unfold clearProgressTimeout.
  destruct (progressUpdateTimeout _); simpl;
    unfold firstProgressTransition; simpl;
    destruct (senderStatus h); simpl; try destruct (Js.gt _ _); reflexivity.
Qed.

(** C5.  For integers [b], [t], [s] sent as ["b:t:s"], the listener builds
    the sample with [bytesTransferred = b], [totalBytes = t],
    [speedBps = s / 1000] and [percentage = b / t * 100] when
    [totalBytes > 0], [0] when [totalBytes <= 0] (in binary64 arithmetic);
    it stores it in the latest-sample ref and arms the 100 ms timer that
    makes it visible; received in WAITING_FOR_RECEIVER with
    [totalBytes > 0] it moves the status to TRANSFERRING.  The payload
    ["1024:2048:500000"] gives 1024, 2048, 500 and 50, and in the scenario
    the status becomes TRANSFERRING and the sample becomes visible. *)
Theorem C5_sample_of_payload :
  (forall (b t s now : Z) (h : Hook),
     let payload := PString (payload_of b t s) in
     let sample := parseProgress (decimal b) (decimal t) (decimal s) in
     bytesTransferred sample = Js.of_Z b /\
     totalBytes sample = Js.of_Z t /\
     speedBps sample = Js.div (Js.of_Z s) (Js.of_Z 1000) /\
     (Js.gt (totalBytes sample) zero = true ->
      percentage sample =
      Js.mul (Js.div (bytesTransferred sample) (totalBytes sample)) (Js.of_Z 100)) /\
     (Js.le (totalBytes sample) zero = true -> percentage sample = zero) /\
     lastProgressRef (progress_listener now payload h) = Some sample /\
     In (mkTimer (nextTimer h) (now + 100) (ShowProgress sample))
        (timers (step now (ProgressEvent payload) h)) /\
     (senderStatus h = WAITING_FOR_RECEIVER ->
      Js.gt (totalBytes sample) zero = true ->
      senderStatus (step now (ProgressEvent payload) h) = TRANSFERRING)) /\
  payload_of 1024 2048 500000 = "1024:2048:500000" /\
  parseProgress "1024" "2048" "500000" =
    mkProgress (Js.of_Z 1024) (Js.of_Z 2048) (Js.of_Z 500) (Js.of_Z 50) /\
  senderStatus (run to_waiting initial) = WAITING_FOR_RECEIVER /\
  senderStatus (run to_transferring initial) = TRANSFERRING /\
  transferProgress (run (to_transferring ++ [(1100, Fire 1)]) initial) =
    Some (mkProgress (Js.of_Z 1024) (Js.of_Z 2048) (Js.of_Z 500) (Js.of_Z 50)).
Proof.
  split; [|vm_compute; repeat split].
  intros b t s now h payload sample.
  assert (Hsample : sample =
            mkProgress (Js.of_Z b) (Js.of_Z t) (Js.div (Js.of_Z s) (Js.of_Z 1000))
              (if Js.gt (Js.of_Z t) zero
               then Js.mul (Js.div (Js.of_Z b) (Js.of_Z t)) (Js.of_Z 100)
               else zero))
    by apply parseProgress_decimal.
  split; [now rewrite Hsample|].
  split; [now rewrite Hsample|].
  split; [now rewrite Hsample|].
  split; [rewrite Hsample; simpl; now intros ->|].
  split.
  { rewrite Hsample. simpl. intros H. now rewrite (le_zero_not_gt _ H). }
  split.
  { apply progress_listener_lastProgressRef, split_payload. }
  split.
  { unfold step. rewrite sync_refs_timers. simpl.
    unfold payload, progress_listener. rewrite split_payload. simpl.
    apply in_or_app. right. left.
    now rewrite progress_prelude_nextTimer. }
  intros Hs Hgt. unfold step. rewrite sync_refs_senderStatus. simpl.
  unfold payload, progress_listener. rewrite split_payload. cbv zeta.
  set (hx := firstProgressTransition _ _ _).
  assert (Hx : senderStatus hx = TRANSFERRING).
  { unfold hx, firstProgressTransition, sample in *.
    change (senderStatus (write_lastProgressRef _ h)) with (senderStatus h).
    rewrite Hs, Hgt. reflexivity. }
  simpl. unfold clearProgressTimeout.
  destruct (progressUpdateTimeout hx); exact Hx.
Qed.

(** The payload of the spec's scenario, received while waiting. *)
Lemma C5_sample_of_payload_witness :
  percentage (parseProgress (decimal 1024) (decimal 2048) (decimal 500000)) =
    Js.mul (Js.div (Js.of_Z 1024) (Js.of_Z 2048)) (Js.of_Z 100) /\
  percentage (parseProgress (decimal 7) (decimal 0) (decimal 0)) = zero /\
  senderStatus
    (step 1000 (ProgressEvent (PString (payload_of 1024 2048 500000)))
       (run to_waiting initial)) = TRANSFERRING.
Proof.
  split; [|split].
  - destruct (proj1 C5_sample_of_payload 1024 2048 500000 1000 initial)
      as (_ & _ & _ & H & _).
    apply H. reflexivity.
  - destruct (proj1 C5_sample_of_payload 7 0 0 1000 initial)
      as (_ & _ & _ & _ & H & _).
    apply H. reflexivity.
  - destruct (proj1 C5_sample_of_payload 1024 2048 500000 1000
                (run to_waiting initial))
      as (_ & _ & _ & _ & _ & _ & _ & H).
    apply H; reflexivity.
Defined.

(** ** C6: payloads that are not a triple of integers *)

(** What the listener does drop: a payload that is not a string, and a
    string that does not split into exactly three fields. *)
Lemma progress_listener_drops (now : Z) (payload : Payload) (h : Hook) :
  match payload with
  | PNotAString => True
  | PString s => List.length (Js.split ":" s) <> 3%nat
  end ->
  progress_listener now payload h = h.
Proof.
  destruct payload as [s|]; [|reflexivity].
  unfold progress_listener.
  destruct (Js.split ":" s) as [|p0 [|p1 [|p2 [|? ?]]]]; simpl; congruence.
Qed.

(** C6.  The payload ["abc:2048:0"] has three fields, so the listener takes
    it although its first field is not an integer: received in
    WAITING_FOR_RECEIVER it moves the status to TRANSFERRING, stores a sample
    whose [bytesTransferred] and [percentage] are NaN in the latest-sample
    ref, and 100 ms later that sample becomes the visible progress. *)
Theorem C6_non_numeric_field_is_accepted :
  senderStatus (run to_waiting initial) = WAITING_FOR_RECEIVER /\
  lastProgressRef (run to_waiting initial) = None /\
  senderStatus (run malformed_in_waiting initial) = TRANSFERRING /\
  lastProgressRef (run malformed_in_waiting initial) =
    Some (mkProgress Js.NaN (Js.of_Z 2048) zero Js.NaN) /\
  transferProgress (run (malformed_in_waiting ++ [(1100, Fire 1)]) initial) =
    Some (mkProgress Js.NaN (Js.of_Z 2048) zero Js.NaN).
Proof. vm_compute. repeat split. Qed.

(** ** C7: [wasStopped] and the terminal status *)





(** ** C8: a manual stop during the file-size lookup *)


(** ** C9: timers that outlive a reset *)

(** [stopSharing] and the continuations and timers that reset to IDLE leave
    the armed timers alone. *)
Lemma resetToIdle_timers (h : Hook) : timers (resetToIdle h) = timers h.
Proof. reflexivity. Qed.

(** C9.  No reset clears a timer.  In the first scenario the decay timer of
    a stopped attempt is still armed when the second attempt waits for its
    receiver with the ticket ["def456"]; when it runs, the second attempt is
    thrown back to IDLE without ticket or selection.  In the second scenario
    the coalescing timer of a sample survives the stop while waiting, and
    puts the sample into the visible progress of the hook back in IDLE. *)
Theorem C9_timers_survive_reset :
  (forall h : Hook, timers (resetToIdle h) = timers h) /\
  senderStatus (run second_attempt_waiting initial) = WAITING_FOR_RECEIVER /\
  ticket (run second_attempt_waiting initial) = Some "def456" /\
  timers (run second_attempt_waiting initial) = [mkTimer 2 4010 StopDecay] /\
  senderStatus (run (second_attempt_waiting ++ [(4010, Fire 2)]) initial) = IDLE /\
  ticket (run (second_attempt_waiting ++ [(4010, Fire 2)]) initial) = None /\
  selectedPath (run (second_attempt_waiting ++ [(4010, Fire 2)]) initial) = None /\
  senderStatus (run stopped_while_waiting initial) = IDLE /\
  transferProgress (run stopped_while_waiting initial) = None /\
  transferProgress (run (stopped_while_waiting ++ [(1100, Fire 1)]) initial) =
    Some (mkProgress zero zero zero zero).
Proof. vm_compute. repeat split. Qed.

(** ** C10: coalescing of progress samples *)

Lemma Forall_filter_keep {A} (P : A -> Prop) (f : A -> bool) (l : list A) :
  Forall P l -> Forall P (filter f l).
Proof.
  induction 1 as [|x l Hx _ IH]; simpl; [constructor|].
  destruct (f x); [constructor|]; assumption.
Qed.

Lemma timers_ok_initial : timers_ok initial.
Proof. constructor. Qed.

(** Re-stating [timers_ok] when neither the counter nor the handle moved. *)
Lemma timers_ok_same (h h' : Hook) :
  nextTimer h' = nextTimer h ->
  progressUpdateTimeout h' = progressUpdateTimeout h ->
  Forall (timer_ok h) (timers h') -> timers_ok h'.
Proof.
  intros Hn Hp H. unfold timers_ok.
  eapply Forall_impl; [|exact H].
  intros t [H1 H2]. unfold timer_ok. rewrite Hn, Hp. auto.
Qed.

(** Arming a timer that is not a coalescing timer. *)
Lemma timers_ok_arm (h h' : Hook) (d : Z) (a : TimerAction) :
  nextTimer h' = S (nextTimer h) ->
  progressUpdateTimeout h' = progressUpdateTimeout h ->
  timers h' = timers h ++ [mkTimer (nextTimer h) d a] ->
  match a with ShowProgress _ => False | _ => True end ->
  timers_ok h -> timers_ok h'.
Proof.
  intros Hn Hp Ht Ha H. unfold timers_ok. rewrite Ht.
  apply Forall_app. split.
  - eapply Forall_impl; [|exact H].
    intros t [H1 H2]. unfold timer_ok. rewrite Hn, Hp. split; [lia|auto].
  - constructor; [|constructor]. unfold timer_ok. simpl. rewrite Hn.
    split; [lia|]. unfold is_show_progress. simpl.
    destruct a; [contradiction| | | |]; discriminate.
Qed.

Lemma clearProgressTimeout_ok (h : Hook) :
  timers_ok h ->
  Forall (timer_ok h) (timers (clearProgressTimeout h)) /\
  nextTimer (clearProgressTimeout h) = nextTimer h /\
  progressUpdateTimeout (clearProgressTimeout h) = progressUpdateTimeout h /\
  filter is_show_progress (timers (clearProgressTimeout h)) = [].
Proof.
  intros H. unfold clearProgressTimeout.
  destruct (progressUpdateTimeout h) as [id|] eqn:Hp; simpl.
  - split; [now apply Forall_filter_keep|].
    split; [reflexivity|]. split; [exact Hp|].
    unfold timers_ok in H. induction H as [|t l [_ Ht] _ IH]; simpl; [reflexivity|].
    destruct (Nat.eqb (tid t) id) eqn:E; simpl; [exact IH|].
    destruct (is_show_progress t) eqn:Es; [|exact IH].
    specialize (Ht eq_refl). rewrite Hp in Ht. injection Ht as ->.
    rewrite Nat.eqb_refl in E. discriminate.
  - split; [assumption|].
    split; [reflexivity|]. split; [exact Hp|].
    unfold timers_ok in H. induction H as [|t l [_ Ht] _ IH]; simpl; [reflexivity|].
    destruct (is_show_progress t) eqn:Es; [|exact IH].
    specialize (Ht eq_refl). rewrite Hp in Ht. discriminate.
Qed.

Lemma no_show_progress {A} (f : A -> bool) (l : list A) :
  filter f l = [] -> Forall (fun x => f x = false) l.
Proof.
  induction l as [|x l IH]; simpl; [constructor|].
  destruct (f x) eqn:E; [discriminate|]. constructor; auto.
Qed.

Lemma progress_listener_ok (now : Z) (payload : Payload) (h : Hook) :
  timers_ok h -> timers_ok (progress_listener now payload h).
Proof.
  intros H. unfold progress_listener.
  destruct payload as [s|]; [|exact H].
  destruct (Js.split ":" s) as [|p0 [|p1 [|p2 [|? ?]]]]; try exact H.
  set (d := parseProgress p0 p1 p2).
  assert (H1 : timers_ok (firstProgressTransition d now (write_lastProgressRef (Some d) h))).
  { unfold firstProgressTransition. simpl.
    destruct (senderStatus h); try exact H.
    destruct (Js.gt _ _); exact H. }
  destruct (clearProgressTimeout_ok _ H1) as (Hc1 & Hc2 & Hc3 & Hc4).
  set (h2 := clearProgressTimeout _) in *.
  unfold timers_ok. simpl. apply Forall_app. split.
  - apply no_show_progress in Hc4.
    rewrite Forall_forall in *. intros t Ht.
    destruct (Hc1 t Ht) as [Hlt _]. specialize (Hc4 t Ht).
    unfold timer_ok. simpl. rewrite Hc2 in *. split; [lia|].
    rewrite Hc4. discriminate.
  - constructor; [|constructor]. unfold timer_ok. simpl. split; [lia|reflexivity].
Qed.

Lemma commitCompletion_ok (now : Z) (m : TransferMetadata) (h : Hook) :
  timers_ok h -> timers_ok (commitCompletion now m h).
Proof.
  intros H.
  eapply (timers_ok_arm h _ (now + 0) CommitComplete);
    try reflexivity; try exact I; exact H.
Qed.

Lemma cleared_progress_ok (h : Hook) :
  timers_ok h -> timers_ok (setTransferProgress None (clearProgressTimeout h)).
Proof.
  intros H. destruct (clearProgressTimeout_ok _ H) as (Hc1 & Hc2 & Hc3 & Hc4).
  apply (timers_ok_same h); assumption.
Qed.

Lemma completed_listener_ok (now : Z) (h : Hook) :
  timers_ok h -> timers_ok (completed_listener now h).
Proof.
  intros H. unfold completed_listener.
  destruct (wasManuallyStoppedRef h); [exact H|].
  destruct (senderStatus h); try exact H.
  pose proof (cleared_progress_ok h H) as H1.
  destruct (selectedPathRef h) as [p|]; [destruct (Js.truthy_string p)|].
  - exact H1.
  - now apply commitCompletion_ok.
  - now apply commitCompletion_ok.
Qed.

Lemma failed_listener_ok (now : Z) (h : Hook) :
  timers_ok h -> timers_ok (failed_listener now h).
Proof.
  intros H. unfold failed_listener.
  destruct (wasManuallyStoppedRef h); [exact H|].
  pose proof (cleared_progress_ok h H) as H1.
  set (h1 := setTransferProgress None (clearProgressTimeout h)) in *.
  eapply (timers_ok_arm _ _ (now + 2000) FailedDecay);
    try reflexivity; try exact I.
  eapply (timers_ok_arm _ _ (now + 0) CommitStopped);
    try reflexivity; try exact I.
  exact H1.
Qed.

Lemma remove_nth_incl {A} (i : nat) (l : list A) (x : A) :
  In x (remove_nth i l) -> In x l.
Proof.
  revert i. induction l as [|y l IH]; intros [|i]; simpl; auto.
  intros [H|H]; eauto.
Qed.

Lemma settle_ok (now : Z) (i : nat) (r : Reply) (h : Hook) :
  timers_ok h -> timers_ok (settle now i r h).
Proof.
  intros H. unfold settle.
  destruct (nth_error (awaiting h) i) as [k|]; [|exact H].
  set (h1 := with_awaiting _ h).
  assert (H1 : timers_ok h1) by exact H.
  destruct k; simpl.
  - destruct r as [[ty| |]|]; exact H.
  - destruct r as [[ty| |]|]; exact H.
  - destruct r as [v|]; exact H.
  - destruct r as [v|]; [|exact H].
    eapply (timers_ok_arm h1 _ (now + 2000) StopDecay);
      try reflexivity; try exact I; exact H1.
  - unfold resumeFileSize.
    destruct r as [[ty| |]|]; try exact H; now apply commitCompletion_ok.
Qed.

Lemma fire_ok (now : Z) (id : nat) (h : Hook) :
  timers_ok h -> timers_ok (fire now id h).
Proof.
  intros H. unfold fire.
  destruct (find _ (timers h)) as [tm|]; [|exact H].
  destruct (Z.leb (due tm) now); [|exact H].
  assert (H1 : timers_ok (clearTimeout id h)).
  { apply (timers_ok_same h); try reflexivity.
    now apply Forall_filter_keep. }
  destruct (action tm); exact H1.
Qed.

Lemma sync_refs_ok (b a : Hook) : timers_ok a -> timers_ok (sync_refs b a).
Proof.
  intros H. apply (timers_ok_same a).
  - unfold sync_refs. destruct (transferProgress b), (transferProgress a); reflexivity.
  - unfold sync_refs. destruct (transferProgress b), (transferProgress a); reflexivity.
  - now rewrite sync_refs_timers.
Qed.

Lemma step_ok (now : Z) (t : Trigger) (h : Hook) :
  timers_ok h -> timers_ok (step now t h).
Proof.
  intros H. unfold step. apply sync_refs_ok.
  destruct t; simpl.
  - exact H.
  - unfold startSharing. destruct (selectedPath h) as [p|]; [|exact H].
    destruct (Js.truthy_string p); exact H.
  - unfold stopSharing. destruct (senderStatus h); exact H.
  - exact H.
  - now apply progress_listener_ok.
  - now apply completed_listener_ok.
  - now apply failed_listener_ok.
  - now apply settle_ok.
  - now apply fire_ok.
Qed.

Lemma run_ok (evs : list (Z * Trigger)) : timers_ok (run evs initial).
Proof.
  induction evs as [|[now t] evs IH] using rev_ind.
  - exact timers_ok_initial.
  - rewrite run_snoc. now apply step_ok.
Qed.

Lemma sync_refs_nextTimer b a : nextTimer (sync_refs b a) = nextTimer a.
Proof. unfold sync_refs. destruct (transferProgress b), (transferProgress a) eqn:E; simpl; congruence. Qed.

Lemma sync_refs_progressUpdateTimeout b a :
  progressUpdateTimeout (sync_refs b a) = progressUpdateTimeout a.
Proof. unfold sync_refs. destruct (transferProgress b), (transferProgress a) eqn:E; simpl; congruence. Qed.

Lemma clearProgressTimeout_forgets (h : Hook) :
  Forall (fun t => progressUpdateTimeout h <> Some (tid t))
    (timers (clearProgressTimeout h)).
Proof.
  unfold clearProgressTimeout.
  destruct (progressUpdateTimeout h) as [id|]; simpl.
  - apply Forall_forall. intros t Ht. apply filter_In in Ht.
    destruct Ht as [_ Ht]. apply negb_true_iff, Nat.eqb_neq in Ht. congruence.
  - apply Forall_forall. intros t _. discriminate.
Qed.

(** What a sample leaves behind in the timers: the older timers except the
    coalescing timer it replaced, and its own coalescing timer last. *)
Lemma progress_step_timers (now : Z) (s a b c : string) (h : Hook) :
  timers_ok h -> Js.split ":" s = [a; b; c] ->
  let h' := step now (ProgressEvent (PString s)) h in
  exists l,
    timers h' =
      l ++ [mkTimer (nextTimer h) (now + 100) (ShowProgress (parseProgress a b c))] /\
    Forall (fun t => (tid t < nextTimer h)%nat /\ is_show_progress t = false /\
                     progressUpdateTimeout h <> Some (tid t)) l /\
    nextTimer h' = S (nextTimer h) /\
    progressUpdateTimeout h' = Some (nextTimer h).
Proof.
  intros H Hs h'. subst h'. unfold step.
  rewrite sync_refs_timers, sync_refs_nextTimer, sync_refs_progressUpdateTimeout.
  simpl. unfold progress_listener. rewrite Hs.
  set (d := parseProgress a b c).
  set (hx := firstProgressTransition d now (write_lastProgressRef (Some d) h)).
  assert (Hx : timers hx = timers h /\ nextTimer hx = nextTimer h /\
               progressUpdateTimeout hx = progressUpdateTimeout h).
  { subst hx. unfold firstProgressTransition. simpl.
    destruct (senderStatus h); auto. destruct (Js.gt _ _); auto. }
  destruct Hx as (Hx1 & Hx2 & Hx3).
  assert (Hok : timers_ok hx).
  { apply (timers_ok_same h); try assumption. now rewrite Hx1. }
  destruct (clearProgressTimeout_ok _ Hok) as (Hc1 & Hc2 & Hc3 & Hc4).
  pose proof (clearProgressTimeout_forgets hx) as Hc5.
  exists (timers (clearProgressTimeout hx)). simpl.
  rewrite Hc2, Hx2. repeat split.
  apply no_show_progress in Hc4. rewrite Forall_forall in *.
  intros t Ht. destruct (Hc1 t Ht) as [Hlt _].
  rewrite Hx2 in Hlt. rewrite <- Hx3. auto.
Qed.

Lemma find_fresh_last (l : list Timer) (tm : Timer) :
  Forall (fun t => (tid t < tid tm)%nat) l ->
  find (fun t => Nat.eqb (tid t) (tid tm)) (l ++ [tm]) = Some tm.
Proof.
  induction 1 as [|t l Ht _ IH]; simpl.
  - now rewrite Nat.eqb_refl.
  - destruct (Nat.eqb_spec (tid t) (tid tm)); [lia|exact IH].
Qed.

Lemma find_absent (l : list Timer) (id : nat) :
  Forall (fun t => tid t <> id) l ->
  find (fun t => Nat.eqb (tid t) id) l = None.
Proof.
  induction 1 as [|t l Ht _ IH]; simpl; [reflexivity|].
  destruct (Nat.eqb_spec (tid t) id); [contradiction|exact IH].
Qed.

Lemma filter_all_false {A} (f : A -> bool) (l : list A) :
  Forall (fun x => f x = false) l -> filter f l = [].
Proof.
  induction 1 as [|x l Hx _ IH]; simpl; [reflexivity|]. now rewrite Hx.
Qed.

Lemma step_synced (now : Z) (t : Trigger) (h : Hook) : synced (step now t h).
Proof. apply sync_refs_synced. Qed.

Lemma fire_before_due (now : Z) (h : Hook) (l : list Timer) (tm : Timer) :
  timers h = l ++ [tm] -> Forall (fun t => (tid t < tid tm)%nat) l ->
  now < due tm -> fire now (tid tm) h = h.
Proof.
  intros Ht Hl Hd. unfold fire. rewrite Ht, (find_fresh_last _ _ Hl).
  destruct (Z.leb_spec (due tm) now); [lia|reflexivity].
Qed.

Lemma fire_absent (now : Z) (id : nat) (h : Hook) :
  Forall (fun t => tid t <> id) (timers h) -> fire now id h = h.
Proof. intros H. unfold fire. now rewrite (find_absent _ _ H). Qed.

Lemma fire_show_progress (now : Z) (h : Hook) (l : list Timer) (tm : Timer)
    (d : TransferProgress) :
  timers h = l ++ [tm] ->
  Forall (fun t => (tid t < tid tm)%nat /\ is_show_progress t = false) l ->
  action tm = ShowProgress d -> due tm <= now ->
  transferProgress (fire now (tid tm) h) = Some d /\
  lastProgressRef (fire now (tid tm) h) = Some d /\
  pending_updates (fire now (tid tm) h) = [].
Proof.
  intros Ht Hl Ha Hd. unfold fire.
  assert (Hlt : Forall (fun t => (tid t < tid tm)%nat) l).
  { eapply Forall_impl; [|exact Hl]. now intros t [H _]. }
  rewrite Ht, (find_fresh_last _ _ Hlt).
  destruct (Z.leb_spec (due tm) now); [|lia].
  rewrite Ha. simpl. repeat split.
  unfold pending_updates. simpl. rewrite Ht.
  rewrite filter_app. simpl. rewrite Nat.eqb_refl. simpl. rewrite app_nil_r.
  apply filter_all_false. apply Forall_forall. intros t Hin.
  apply filter_In in Hin. destruct Hin as [Hin _].
  rewrite Forall_forall in Hl. now destruct (Hl t Hin).
Qed.

Lemma pending_updates_after_sample (l : list Timer) (tm : Timer) :
  Forall (fun t => is_show_progress t = false) l ->
  is_show_progress tm = true ->
  filter is_show_progress (l ++ [tm]) = [tm].
Proof.
  intros Hl Htm. rewrite filter_app, (filter_all_false _ _ Hl). simpl.
  now rewrite Htm.
Qed.

(** C10.  Two samples arrive one after the other, the second before the
    100 ms of the first have passed.  Each is written to [lastProgressRef]
    by the listener itself.  After the first, one visible update is
    pending, and it cannot run before its 100 ms are over; the second
    cancels it, so that again exactly one update is pending, carrying the
    second sample.  The cancelled timer never runs, and when the pending
    one does, the visible progress is the second sample and no update is
    left. *)
Theorem C10_latest_sample_wins :
  forall (evs : list (Z * Trigger)) (t1 t t2 : Z)
         (s1 s2 a1 b1 c1 a2 b2 c2 : string),
    Js.split ":" s1 = [a1; b1; c1] ->
    Js.split ":" s2 = [a2; b2; c2] ->
    t < t1 + 100 ->
    let h := run evs initial in
    let d1 := parseProgress a1 b1 c1 in
    let d2 := parseProgress a2 b2 c2 in
    let h1 := step t1 (ProgressEvent (PString s1)) h in
    let h2 := step t2 (ProgressEvent (PString s2)) h1 in
    lastProgressRef (progress_listener t1 (PString s1) h) = Some d1 /\
    lastProgressRef (progress_listener t2 (PString s2) h1) = Some d2 /\
    pending_updates h1 = [mkTimer (nextTimer h) (t1 + 100) (ShowProgress d1)] /\
    step t (Fire (nextTimer h)) h1 = h1 /\
    pending_updates h2 = [mkTimer (nextTimer h1) (t2 + 100) (ShowProgress d2)] /\
    (forall now : Z, step now (Fire (nextTimer h)) h2 = h2) /\
    (forall now : Z,
       t2 + 100 <= now ->
       transferProgress (step now (Fire (nextTimer h1)) h2) = Some d2 /\
       pending_updates (step now (Fire (nextTimer h1)) h2) = []).
Proof.
  intros evs t1 t t2 s1 s2 a1 b1 c1 a2 b2 c2 Hs1 Hs2 Ht h d1 d2 h1 h2.
  assert (Hok : timers_ok h) by apply run_ok.
  assert (Hok1 : timers_ok h1) by now apply step_ok.
  destruct (progress_step_timers t1 s1 a1 b1 c1 h Hok Hs1)
    as (l1 & Htm1 & Hl1 & Hn1 & Hp1).
  destruct (progress_step_timers t2 s2 a2 b2 c2 h1 Hok1 Hs2)
    as (l2 & Htm2 & Hl2 & Hn2 & Hp2).
  fold h1 in Htm1, Hn1, Hp1. fold h2 in Htm2, Hn2, Hp2.
  fold d1 in Htm1. fold d2 in Htm2.
  split; [now apply progress_listener_lastProgressRef|].
  split; [now apply progress_listener_lastProgressRef|].
  split.
  { unfold pending_updates. rewrite Htm1.
    apply pending_updates_after_sample; [|reflexivity].
    eapply Forall_impl; [|exact Hl1]. now intros x (_ & Hx & _). }
  split.
  { assert (F : fire t (nextTimer h) h1 = h1).
    { apply (fire_before_due t h1 l1
               (mkTimer (nextTimer h) (t1 + 100) (ShowProgress d1)));
        [exact Htm1| |simpl; lia].
      eapply Forall_impl; [|exact Hl1]. now intros x (Hx & _). }
    unfold step. simpl. rewrite F. apply sync_refs_same, step_synced. }
  split.
  { unfold pending_updates. rewrite Htm2.
    apply pending_updates_after_sample; [|reflexivity].
    eapply Forall_impl; [|exact Hl2]. now intros x (_ & Hx & _). }
  split.
  { intros now. unfold step. simpl.
    rewrite fire_absent; [apply sync_refs_same, step_synced|].
    rewrite Htm2. apply Forall_app. split.
    - eapply Forall_impl; [|exact Hl2]. intros x (_ & _ & Hx).
      rewrite Hp1 in Hx. congruence.
    - constructor; [|constructor]. simpl. rewrite Hn1. lia. }
  intros now Hnow. unfold step.
  rewrite sync_refs_transferProgress. unfold pending_updates.
  rewrite sync_refs_timers. simpl.
  destruct (fire_show_progress now h2 l2
              (mkTimer (nextTimer h1) (t2 + 100) (ShowProgress d2)) d2)
    as (F1 & _ & F3); auto.
  eapply Forall_impl; [|exact Hl2]. now intros x (Hx1 & Hx2 & _).
Qed.

(** The spec's scenario: ["100:1000:0"] at 1200 and ["50:1000:0"] at 1250,
    in TRANSFERRING; when the pending timer runs at 1350, only the second
    sample becomes visible. *)
Lemma C10_latest_sample_wins_witness :
  transferProgress
    (step 1350
       (Fire (nextTimer (step 1200 (ProgressEvent (PString "100:1000:0"))
                           (run two_samples_base initial))))
       (step 1250 (ProgressEvent (PString "50:1000:0"))
          (step 1200 (ProgressEvent (PString "100:1000:0"))
             (run two_samples_base initial)))) =
  Some (parseProgress "50" "1000" "0").
Proof.
  refine (proj1 (proj2 (proj2 (proj2 (proj2 (proj2 (proj2
    (C10_latest_sample_wins two_samples_base 1200 1250 1250
       "100:1000:0" "50:1000:0" "100" "1000" "0" "50" "1000" "0"
       eq_refl eq_refl eq_refl)))))) 1350 _)).
  lia.
Defined.
